(** * separation: a three-layer user registry (main.go)

    The program has an action layer (the in-memory user storage), a
    business layer (the user service) and an access layer (JSON over
    HTTP).  Each Go method with a pointer receiver becomes a function
    that takes the receiver's state and returns the new state next to
    its Go results; each Go interface becomes a type class over the
    state type of its implementation.  Requests are taken one at a
    time; the dispatch of a path to its handler by http.ServeMux and
    the wiring of [main] are library and start-up code and are not
    part of the model. *)

From Stdlib Require Import Ascii String.
From stdpp Require Import gmap strings list.

Open Scope string_scope.
Open Scope Z_scope.

(** ** Go's error values

    The program compares errors by identity against two package-level
    sentinels and otherwise only reads their text.  [errors_New] stands
    for every error value that is neither of the sentinels: a fresh
    [errors.New(text)] is never identical to a sentinel, whatever its
    text. *)
Inductive error : Type :=
  | ErrUserNotFound
  | ErrEmailExists
  | errors_New (text : string).

#[global] Instance error_eq_dec : EqDecision error.
Proof. solve_decision. Defined.

(** The [Error()] method: the text each error was created with. *)
Definition Error (e : error) : string :=
  match e with
  | ErrUserNotFound => "User not found"
  | ErrEmailExists => "Email is already in use"
  | errors_New text => text
  end.

(** ** Action layer *)

Record User : Type := { Email : string; Name : string }.

#[global] Instance User_eq_dec : EqDecision User.
Proof. solve_decision. Defined.

(** The Go result pair of a user pointer and an error: either
    component may be nil. *)
Definition GetResult : Type := option User * option error.

Module UserStorer.

(** interface UserStorer, over the state [St] of the implementation. *)
Class t (St : Type) : Type := {
  Get : string -> St -> GetResult * St;
  Save : User -> St -> option error * St
}.

End UserStorer.

Module MemoryUserStorage.

Record t : Type := { store : gmap string User }.

Definition Get (email : string) (ms : t) : GetResult * t :=
  match store ms !! email with
  | Some u => ((Some u, None), ms)
  | None => ((None, Some ErrUserNotFound), ms)
  end.

Definition Save (user : User) (ms : t) : option error * t :=
  (None, {| store := <[Email user := user]> (store ms) |}).

#[global] Instance storer : UserStorer.t t :=
  {| UserStorer.Get := Get; UserStorer.Save := Save |}.

End MemoryUserStorage.

Definition NewMemoryUserStorage : MemoryUserStorage.t :=
  {| MemoryUserStorage.store := ∅ |}.

(** ** Business logic *)

(** [strings.ContainsRune(s, r)] for a rune below 0x80: such a rune is
    one byte of the UTF-8 text and occurs in no longer encoding, so the
    search is a search for that byte. *)
Fixpoint ContainsRune (s : string) (r : ascii) : bool :=
  match s with
  | EmptyString => false
  | String c rest => if decide (c = r) then true else ContainsRune rest r
  end.

Definition at_sign : ascii := "@"%char.

Module RegisterParams.

Record t : Type := { Email : string; Name : string }.

Definition Validate (rp : t) : option error :=
  if decide (Email rp = "") then
    Some (errors_New "Email cannot be empty")
  else if negb (ContainsRune (Email rp) at_sign) then
    Some (errors_New "Email must include an '@' symbol")
  else if decide (Name rp = "") then
    Some (errors_New "Name cannot be empty")
  else None.

End RegisterParams.

Module UserService.

(** interface UserService, over the state [St] of the implementation. *)
Class t (St : Type) : Type := {
  Register : RegisterParams.t -> St -> option error * St;
  GetByEmail : string -> St -> GetResult * St
}.

End UserService.

Module UserServiceImpl.

Section impl.
Context {St : Type} {userStorage : UserStorer.t St}.

Definition Register (params : RegisterParams.t) (us : St) : option error * St :=
  let '((_, err), us1) := UserStorer.Get (RegisterParams.Email params) us in
  if decide (err = None) then
    (Some ErrEmailExists, us1)
  else if decide (err <> Some ErrUserNotFound) then
    (err, us1)
  else
    UserStorer.Save {| Email := RegisterParams.Email params;
                       Name := RegisterParams.Name params |} us1.

Definition GetByEmail (email : string) (us : St) : GetResult * St :=
  UserStorer.Get email us.

#[global] Instance service : UserService.t St :=
  {| UserService.Register := Register; UserService.GetByEmail := GetByEmail |}.

End impl.

End UserServiceImpl.

(** ** Access layer *)

Definition newline : string := String "010"%char EmptyString.

Module http.

Definition MethodGet : string := "GET".
Definition MethodPost : string := "POST".

Definition StatusOK : Z := 200.
Definition StatusCreated : Z := 201.
Definition StatusBadRequest : Z := 400.
Definition StatusForbidden : Z := 403.
Definition StatusNotFound : Z := 404.
Definition StatusMethodNotAllowed : Z := 405.
Definition StatusInternalServerError : Z := 500.

(** What the handlers read of a request: the method, the body, and the
    parsed form (for a GET, the query parameters with their values in
    order). *)
Record Request : Type := {
  Method : string;
  Body : string;
  Form : gmap string (list string)
}.

(** [r.FormValue(key)]: the first value of [key], the empty string when
    there is none. *)
Definition FormValue (key : string) (r : Request) : string :=
  match Form r !! key with
  | Some (v :: _) => v
  | _ => ""
  end.

(** What the handlers write of a response: the status code, unset until
    the header is written, and the body written so far. *)
Record ResponseWriter : Type := {
  Code : option Z;
  Written : string
}.

Definition NewRecorder : ResponseWriter :=
  {| Code := None; Written := "" |}.

(** The header is written once; a later call changes nothing. *)
Definition WriteHeader (code : Z) (w : ResponseWriter) : ResponseWriter :=
  match Code w with
  | Some _ => w
  | None => {| Code := Some code; Written := Written w |}
  end.

(** A write before any header sends the header with status 200. *)
Definition Write (data : string) (w : ResponseWriter) : ResponseWriter :=
  let w1 := WriteHeader StatusOK w in
  {| Code := Code w1; Written := Written w1 ++ data |}.

(** [http.Error]: the status, then the message and a newline as the
    body. *)
Definition Error (w : ResponseWriter) (msg : string) (code : Z) : ResponseWriter :=
  Write (msg ++ newline) (WriteHeader code w).

(** The status the client receives: 200 when the handler never wrote
    a header. *)
Definition Status (w : ResponseWriter) : Z :=
  default StatusOK (Code w).

End http.

Module json.

(** The package encoding/json is a library outside the repository.
    Its decoding of a request body into the parameters and its
    marshalling of a user are taken as given. *)
Class Codec : Type := {
  Decode : string -> RegisterParams.t -> RegisterParams.t * option error;
  Marshal : option User -> string + error
}.

(** [Encoder.Encode]: the marshalled value followed by a newline is
    written to the response; a value that does not marshal writes
    nothing and is reported. *)
Definition Encode `{Codec} (v : option User) (w : http.ResponseWriter)
    : http.ResponseWriter * option error :=
  match Marshal v with
  | inl data => (http.Write (data ++ newline) w, None)
  | inr err => (w, Some err)
  end.

End json.

Module JsonOverHTTP.

Section handlers.
Context {St : Type} {usrServ : UserService.t St} {codec : json.Codec}.

Definition Register (w : http.ResponseWriter) (r : http.Request) (j : St)
    : http.ResponseWriter * St :=
  if decide (http.Method r <> http.MethodPost) then
    (http.Error w "Register requires a post request" http.StatusMethodNotAllowed, j)
  else
    let params := {| RegisterParams.Email := ""; RegisterParams.Name := "" |} in
    let '(params, err) := json.Decode (http.Body r) params in
    if decide (err <> None) then
      (http.Error w "Unable to read your request" http.StatusBadRequest, j)
    else
      match RegisterParams.Validate params with
      | Some err => (http.Error w (Error err) http.StatusBadRequest, j)
      | None =>
          let '(err, j1) := UserService.Register params j in
          match err with
          | Some e =>
              if decide (e = ErrEmailExists) then
                (http.Error w (Error e) http.StatusForbidden, j1)
              else
                (http.Error w (Error e) http.StatusInternalServerError, j1)
          | None => (http.WriteHeader http.StatusCreated w, j1)
          end
      end.

Definition validateEmail (email : string) : option error :=
  if decide (email = "") then
    Some (errors_New "Email must not be empty")
  else if negb (ContainsRune email at_sign) then
    Some (errors_New "Email must include an '@' symbol")
  else None.

Definition GetUser (w : http.ResponseWriter) (r : http.Request) (j : St)
    : http.ResponseWriter * St :=
  if decide (http.Method r <> http.MethodGet) then
    (http.Error w "GetUser requires a get request" http.StatusMethodNotAllowed, j)
  else
    let email := http.FormValue "email" r in
    match validateEmail email with
    | Some err => (http.Error w (Error err) http.StatusBadRequest, j)
    | None =>
        let '((u, err), j1) := UserService.GetByEmail email j in
        match err with
        | Some e =>
            if decide (e = ErrUserNotFound) then
              (http.Error w (Error e) http.StatusNotFound, j1)
            else
              (http.Error w (Error e) http.StatusInternalServerError, j1)
        | None =>
            match json.Encode u w with
            | (w1, Some e) =>
                (http.Error w1 (Error e) http.StatusInternalServerError, j1)
            | (w1, None) => (w1, j1)
            end
        end
    end.

End handlers.

End JsonOverHTTP.

(** ** Specification of the registration algorithm

    The four steps of the registration rule, as a relation between the
    parameters, the state before and the result: (1) look the email up,
    (2) a found user is a conflict, (3) any failure other than not-found
    is passed on, (4) otherwise the user built from the
    parameters is saved and the result of the save is the result. *)
Inductive register_spec {St : Type} {userStorage : UserStorer.t St}
    (params : RegisterParams.t) (us : St) : option error * St -> Prop :=
  | spec_conflict (u : option User) (us1 : St) :
      UserStorer.Get (RegisterParams.Email params) us = ((u, None), us1) ->
      register_spec params us (Some ErrEmailExists, us1)
  | spec_propagate (u : option User) (e : error) (us1 : St) :
      UserStorer.Get (RegisterParams.Email params) us = ((u, Some e), us1) ->
      e <> ErrUserNotFound ->
      register_spec params us (Some e, us1)
  | spec_save (u : option User) (us1 : St) :
      UserStorer.Get (RegisterParams.Email params) us
        = ((u, Some ErrUserNotFound), us1) ->
      register_spec params us
        (UserStorer.Save {| Email := RegisterParams.Email params;
                            Name := RegisterParams.Name params |} us1).

(** ** Runs of the service over the in-memory storage *)

Inductive op : Type :=
  | OpRegister (params : RegisterParams.t)
  | OpGetByEmail (email : string).

Definition exec (o : op) (ms : MemoryUserStorage.t) : MemoryUserStorage.t :=
  match o with
  | OpRegister params => snd (UserServiceImpl.Register params ms)
  | OpGetByEmail email => snd (UserServiceImpl.GetByEmail email ms)
  end.

(** The states the service can bring the storage to, from the empty
    store of [main]. *)
Inductive reachable : MemoryUserStorage.t -> Prop :=
  | reach_new : reachable NewMemoryUserStorage
  | reach_step (o : op) (ms : MemoryUserStorage.t) :
      reachable ms -> reachable (exec o ms).

(** The stored records whose Email field is [email]. *)
Definition records_of (email : string) (ms : MemoryUserStorage.t)
    : list (string * User) :=
  filter (fun kv => Email (snd kv) = email)
         (map_to_list (MemoryUserStorage.store ms)).

(** Every record is stored under its own email. *)
Definition keyed_by_email (ms : MemoryUserStorage.t) : Prop :=
  forall (k : string) (u : User),
    MemoryUserStorage.store ms !! k = Some u -> Email u = k.

(** ** Instrumentation and test doubles *)

Module Counting.

(** A service that counts the calls made to it, around any service. *)
Definition service {St : Type} (inner : UserService.t St)
    : UserService.t (St * nat) :=
  {| UserService.Register := fun params '(s, calls) =>
       let '(err, s1) := UserService.Register params s in
       (err, (s1, S calls));
     UserService.GetByEmail := fun email '(s, calls) =>
       let '(res, s1) := UserService.GetByEmail email s in
       (res, (s1, S calls)) |}.

End Counting.

Module Faulty.

(** A storage whose backing store is out of order: every call fails
    with an error that is none of the sentinels. *)
Definition fault : error := errors_New "connection refused".

Definition storer : UserStorer.t unit :=
  {| UserStorer.Get := fun _ s => ((None, Some fault), s);
     UserStorer.Save := fun _ s => (Some fault, s) |}.

End Faulty.

Module Sample.

(** A stand-in codec for examples: a body is the email, a space and
    the name; the empty body does not decode.  A user is marshalled as
    its two fields around a colon. *)
Fixpoint split_space (s : string) : string * string :=
  match s with
  | EmptyString => (EmptyString, EmptyString)
  | String c rest =>
      if decide (c = " "%char) then (EmptyString, rest)
      else let '(a, b) := split_space rest in (String c a, b)
  end.

Definition codec : json.Codec :=
  {| json.Decode := fun body params =>
       if decide (body = "") then (params, Some (errors_New "EOF"))
       else let '(a, b) := split_space body in
            ({| RegisterParams.Email := a; RegisterParams.Name := b |}, None);
     json.Marshal := fun v =>
       match v with
       | Some u => inl (Email u ++ ":" ++ Name u)
       | None => inl "null"
       end |}.

(** The same codec with a marshaller that always fails. *)
Definition broken_codec : json.Codec :=
  {| json.Decode := json.Decode (Codec := codec);
     json.Marshal := fun _ => inr (errors_New "unsupported value") |}.

Definition post (body : string) : http.Request :=
  {| http.Method := http.MethodPost; http.Body := body; http.Form := ∅ |}.

Definition get (query : gmap string (list string)) : http.Request :=
  {| http.Method := http.MethodGet; http.Body := ""; http.Form := query |}.

(** The store of [main] after Ann registered. *)
Definition ann_registered : MemoryUserStorage.t :=
  snd (UserServiceImpl.Register
         {| RegisterParams.Email := "ann@example.org";
            RegisterParams.Name := "Ann" |} NewMemoryUserStorage).

End Sample.

(** ** Runs of calls and of requests *)

(** The user Register builds from its parameters. *)
Definition user_of (params : RegisterParams.t) : User :=
  {| Email := RegisterParams.Email params; Name := RegisterParams.Name params |}.

(** A sequence of service calls, one after the other. *)
Definition run (ops : list op) (ms : MemoryUserStorage.t) : MemoryUserStorage.t :=
  foldl (fun s o => exec o s) ms ops.

(** The user of the earliest registration under [email] in a
    sequence of calls, if there is one. *)
Fixpoint first_registration (email : string) (ops : list op) : option User :=
  match ops with
  | [] => None
  | OpRegister params :: rest =>
      if decide (RegisterParams.Email params = email) then Some (user_of params)
      else first_registration email rest
  | OpGetByEmail _ :: rest => first_registration email rest
  end.

(** What validation asks of the fields of a user. *)
Definition valid_user (u : User) : Prop :=
  Email u <> "" /\ ContainsRune (Email u) at_sign = true /\ Name u <> "".

(** The two patterns NewJsonOverHTTP registers, each with its handler:
    /register with Register and /user with GetUser. *)
Inductive endpoint : Type :=
  | RegisterEndpoint
  | UserEndpoint.

(** One request served at an endpoint of the in-memory program, with a
    response writer of its own. *)
Definition serve {codec : json.Codec} (ep : endpoint) (r : http.Request)
    (ms : MemoryUserStorage.t) : http.ResponseWriter * MemoryUserStorage.t :=
  match ep with
  | RegisterEndpoint => JsonOverHTTP.Register http.NewRecorder r ms
  | UserEndpoint => JsonOverHTTP.GetUser http.NewRecorder r ms
  end.

(** The states the program of [main] can be in after serving requests,
    one at a time, from the empty store. *)
Inductive served {codec : json.Codec} : MemoryUserStorage.t -> Prop :=
  | served_new : served NewMemoryUserStorage
  | served_step (ep : endpoint) (r : http.Request) (ms : MemoryUserStorage.t) :
      served ms -> served (snd (serve ep r ms)).

(** A sequence of /user requests, each with a writer of its own. *)
Definition lookups {codec : json.Codec}
    (rs : list (http.ResponseWriter * http.Request)) (ms : MemoryUserStorage.t)
    : MemoryUserStorage.t :=
  foldl (fun s wr => snd (JsonOverHTTP.GetUser (fst wr) (snd wr) s)) ms rs.

(** * Properties *)

(** ** The in-memory storage *)

Lemma Get_found (email : string) (ms : MemoryUserStorage.t) (u : User) :
  MemoryUserStorage.store ms !! email = Some u ->
  MemoryUserStorage.Get email ms = ((Some u, None), ms).
Proof. intros Hl. unfold MemoryUserStorage.Get. by rewrite Hl. Qed.

Lemma Get_absent (email : string) (ms : MemoryUserStorage.t) :
  MemoryUserStorage.store ms !! email = None ->
  MemoryUserStorage.Get email ms = ((None, Some ErrUserNotFound), ms).
Proof. intros Hl. unfold MemoryUserStorage.Get. by rewrite Hl. Qed.

Lemma Get_state (email : string) (ms : MemoryUserStorage.t) :
  snd (MemoryUserStorage.Get email ms) = ms.
Proof. unfold MemoryUserStorage.Get. by destruct (_ !! _). Qed.

(** ** The service over the in-memory storage *)

Lemma Register_taken (params : RegisterParams.t) (ms : MemoryUserStorage.t) (u : User) :
  MemoryUserStorage.store ms !! RegisterParams.Email params = Some u ->
  UserServiceImpl.Register params ms = (Some ErrEmailExists, ms).
Proof.
  intros Hl. unfold UserServiceImpl.Register. cbn.
  rewrite (Get_found _ _ _ Hl). by rewrite decide_True.
Qed.

Lemma Register_free (params : RegisterParams.t) (ms : MemoryUserStorage.t) :
  MemoryUserStorage.store ms !! RegisterParams.Email params = None ->
  UserServiceImpl.Register params ms
  = (None,
     {| MemoryUserStorage.store :=
          <[RegisterParams.Email params :=
              {| Email := RegisterParams.Email params;
                 Name := RegisterParams.Name params |}]>
            (MemoryUserStorage.store ms) |}).
Proof.
  intros Hl. unfold UserServiceImpl.Register. cbn.
  rewrite (Get_absent _ _ Hl).
  rewrite decide_False by discriminate.
  rewrite decide_False; [done | intros Hne; by apply Hne].
Qed.

(** C1. Register runs the four-step rule and nothing else: its result
    on any storage is exactly a result the rule allows. *)
Theorem Register_follows_algorithm {St : Type} {userStorage : UserStorer.t St}
    (params : RegisterParams.t) (us : St) (out : option error * St) :
  UserServiceImpl.Register params us = out <-> register_spec params us out.
Proof.
  unfold UserServiceImpl.Register. split.
  - intros <-.
    destruct (UserStorer.Get (RegisterParams.Email params) us)
      as [[u err] us1] eqn:Hget.
    destruct err as [e|].
    + rewrite decide_False by discriminate.
      destruct (decide (e = ErrUserNotFound)) as [->|Hne].
      * rewrite decide_False; [|intros Hq; by apply Hq].
        by eapply spec_save.
      * rewrite decide_True by congruence.
        by eapply spec_propagate.
    + rewrite decide_True by done. by eapply spec_conflict.
  - intros Hspec. destruct Hspec as [u us1 Hget|u e us1 Hget Hne|u us1 Hget];
      rewrite Hget.
    + by rewrite decide_True.
    + rewrite decide_False by discriminate.
      by rewrite decide_True by congruence.
    + rewrite decide_False by discriminate.
      rewrite decide_False; [done | intros Hq; by apply Hq].
Qed.

(** C8. GetByEmail hands back what the storage's Get returns, user
    and error alike, for every storage; over the in-memory storage
    that is the stored record or the not-found error, and the storage
    is left as it was. *)
Theorem GetByEmail_is_Get :
  (forall (St : Type) (userStorage : UserStorer.t St) (email : string) (us : St),
      UserServiceImpl.GetByEmail email us = UserStorer.Get email us)
  /\ (forall (email : string) (ms : MemoryUserStorage.t),
        UserServiceImpl.GetByEmail email ms
        = (match MemoryUserStorage.store ms !! email with
           | Some u => (Some u, None)
           | None => (None, Some ErrUserNotFound)
           end, ms)).
Proof.
  split.
  - intros St userStorage email us. reflexivity.
  - intros email ms. unfold UserServiceImpl.GetByEmail. cbn.
    unfold MemoryUserStorage.Get. by destruct (_ !! _).
Qed.

(** C10. Save touches the entry of the saved user's email only: at
    any other email the store holds what it held, and Get answers what
    it answered before the Save. *)
Theorem Save_frame (ms : MemoryUserStorage.t) (user : User) (email : string) :
  email <> Email user ->
  let ms' := snd (MemoryUserStorage.Save user ms) in
  MemoryUserStorage.store ms' !! email = MemoryUserStorage.store ms !! email
  /\ fst (MemoryUserStorage.Get email ms') = fst (MemoryUserStorage.Get email ms).
Proof.
  intros Hne ms'.
  assert (Hl : MemoryUserStorage.store ms' !! email
               = MemoryUserStorage.store ms !! email).
  { subst ms'. cbn. by rewrite lookup_insert_ne. }
  split; [exact Hl|].
  unfold MemoryUserStorage.Get. rewrite Hl.
  destruct (MemoryUserStorage.store ms !! email); reflexivity.
Qed.

Lemma Save_frame_example :
  let ms := snd (MemoryUserStorage.Save
                   {| Email := "ann@example.org"; Name := "Ann" |}
                   NewMemoryUserStorage) in
  let ms' := snd (MemoryUserStorage.Save
                    {| Email := "bob@example.org"; Name := "Bob" |} ms) in
  "ann@example.org" <> "bob@example.org"
  /\ fst (MemoryUserStorage.Get "ann@example.org" ms')
     = (Some {| Email := "ann@example.org"; Name := "Ann" |}, None).
Proof.
  assert (Hne : "ann@example.org" <> "bob@example.org") by discriminate.
  split; [exact Hne|].
  rewrite (proj2 (Save_frame _ {| Email := "bob@example.org"; Name := "Bob" |}
                    "ann@example.org" Hne)).
  vm_compute. reflexivity.
Defined.

(** ** Registration and lookup *)

Lemma Register_cases (params : RegisterParams.t) (ms : MemoryUserStorage.t) :
  (exists u, MemoryUserStorage.store ms !! RegisterParams.Email params = Some u
             /\ UserServiceImpl.Register params ms = (Some ErrEmailExists, ms))
  \/ (MemoryUserStorage.store ms !! RegisterParams.Email params = None
      /\ UserServiceImpl.Register params ms
         = (None,
            {| MemoryUserStorage.store :=
                 <[RegisterParams.Email params :=
                     {| Email := RegisterParams.Email params;
                        Name := RegisterParams.Name params |}]>
                   (MemoryUserStorage.store ms) |})).
Proof.
  destruct (MemoryUserStorage.store ms !! RegisterParams.Email params)
    as [u|] eqn:Hl.
  - left. exists u. split; [done|]. by eapply Register_taken.
  - right. split; [done|]. by apply Register_free.
Qed.

(** C3. Registering a valid pair under a free email succeeds; looking
    the email up afterwards gives a user with exactly the registered
    email and name, and looking it up again gives the same answer. *)
Theorem register_then_get (params : RegisterParams.t) (ms : MemoryUserStorage.t) :
  RegisterParams.Validate params = None ->
  MemoryUserStorage.store ms !! RegisterParams.Email params = None ->
  let user := {| Email := RegisterParams.Email params;
                 Name := RegisterParams.Name params |} in
  let reg := UserServiceImpl.Register params ms in
  let first := UserServiceImpl.GetByEmail (RegisterParams.Email params) (snd reg) in
  let second := UserServiceImpl.GetByEmail (RegisterParams.Email params) (snd first) in
  fst reg = None
  /\ fst first = (Some user, None)
  /\ fst second = fst first.
Proof.
  intros _ Hfree user reg first second.
  subst reg first second. rewrite (Register_free _ _ Hfree). cbn [fst snd].
  unfold UserServiceImpl.GetByEmail. cbn [UserStorer.Get MemoryUserStorage.storer].
  set (ms1 := {| MemoryUserStorage.store := _ |}).
  assert (Hl : MemoryUserStorage.store ms1 !! RegisterParams.Email params
               = Some user).
  { subst ms1. cbn. by rewrite lookup_insert_eq. }
  rewrite (Get_found _ _ _ Hl). cbn [fst snd].
  rewrite (Get_found _ _ _ Hl). done.
Qed.

Lemma register_then_get_example :
  let params := {| RegisterParams.Email := "ann@example.org";
                   RegisterParams.Name := "Ann" |} in
  let reg := UserServiceImpl.Register params NewMemoryUserStorage in
  let first := UserServiceImpl.GetByEmail "ann@example.org" (snd reg) in
  let second := UserServiceImpl.GetByEmail "ann@example.org" (snd first) in
  fst reg = None
  /\ fst first = (Some {| Email := "ann@example.org"; Name := "Ann" |}, None)
  /\ fst second = fst first.
Proof.
  apply (register_then_get
           {| RegisterParams.Email := "ann@example.org";
              RegisterParams.Name := "Ann" |} NewMemoryUserStorage);
    vm_compute; reflexivity.
Defined.

(** C4. After a registration that succeeded, a second registration
    under the same email fails with ErrEmailExists, and the record
    stored for the email is still the one of the first registration. *)
Theorem register_twice (first second : RegisterParams.t)
    (ms ms1 : MemoryUserStorage.t) :
  RegisterParams.Email second = RegisterParams.Email first ->
  UserServiceImpl.Register first ms = (None, ms1) ->
  let again := UserServiceImpl.Register second ms1 in
  fst again = Some ErrEmailExists
  /\ MemoryUserStorage.Get (RegisterParams.Email first) (snd again)
     = ((Some {| Email := RegisterParams.Email first;
                 Name := RegisterParams.Name first |}, None), snd again).
Proof.
  intros Hsame Hreg again.
  destruct (Register_cases first ms) as [(u & _ & Hr)|[_ Hr]];
    rewrite Hr in Hreg; [discriminate|].
  injection Hreg as <-.
  set (ms1 := {| MemoryUserStorage.store := _ |}) in *.
  assert (Hl : MemoryUserStorage.store ms1 !! RegisterParams.Email first
               = Some {| Email := RegisterParams.Email first;
                         Name := RegisterParams.Name first |}).
  { subst ms1. cbn. by rewrite lookup_insert_eq. }
  assert (Hagain : again = (Some ErrEmailExists, ms1)).
  { subst again. eapply Register_taken. rewrite Hsame. exact Hl. }
  rewrite Hagain. cbn [fst snd]. split; [done|]. by apply Get_found.
Qed.

Lemma register_twice_example :
  let first := {| RegisterParams.Email := "ann@example.org";
                  RegisterParams.Name := "Ann" |} in
  let second := {| RegisterParams.Email := "ann@example.org";
                   RegisterParams.Name := "Another Ann" |} in
  let ms1 := snd (UserServiceImpl.Register first NewMemoryUserStorage) in
  let again := UserServiceImpl.Register second ms1 in
  fst again = Some ErrEmailExists
  /\ MemoryUserStorage.Get "ann@example.org" (snd again)
     = ((Some {| Email := "ann@example.org"; Name := "Ann" |}, None), snd again).
Proof.
  apply (register_twice
           {| RegisterParams.Email := "ann@example.org";
              RegisterParams.Name := "Ann" |}
           {| RegisterParams.Email := "ann@example.org";
              RegisterParams.Name := "Another Ann" |}
           NewMemoryUserStorage);
    vm_compute; reflexivity.
Defined.

(** ** The uniqueness invariant *)

Lemma exec_keyed (o : op) (ms : MemoryUserStorage.t) :
  keyed_by_email ms -> keyed_by_email (exec o ms).
Proof.
  intros Hk. destruct o as [params|email]; cbn [exec].
  - destruct (Register_cases params ms) as [(u & _ & ->)|[_ ->]];
      cbn [snd]; [exact Hk|].
    intros k u. cbn [MemoryUserStorage.store].
    destruct (decide (RegisterParams.Email params = k)) as [<-|Hne].
    + rewrite lookup_insert_eq. by intros [= <-].
    + rewrite lookup_insert_ne by done. apply Hk.
  - unfold UserServiceImpl.GetByEmail. cbn [UserStorer.Get MemoryUserStorage.storer].
    by rewrite Get_state.
Qed.

Lemma reachable_keyed (ms : MemoryUserStorage.t) :
  reachable ms -> keyed_by_email ms.
Proof.
  induction 1 as [|o ms _ IH].
  - intros k u. cbn. by rewrite lookup_empty.
  - by apply exec_keyed.
Qed.

Lemma keyed_same_record (ms : MemoryUserStorage.t) (k1 k2 : string) (u1 u2 : User) :
  keyed_by_email ms ->
  MemoryUserStorage.store ms !! k1 = Some u1 ->
  MemoryUserStorage.store ms !! k2 = Some u2 ->
  Email u1 = Email u2 ->
  k1 = k2 /\ u1 = u2.
Proof.
  intros Hk H1 H2 He.
  assert (k1 = k2) as <-
    by (rewrite <- (Hk _ _ H1), <- (Hk _ _ H2); exact He).
  split; [done | congruence].
Qed.

Lemma NoDup_all_equal_length {A : Type} (l : list A) :
  NoDup l -> (forall x y, x ∈ l -> y ∈ l -> x = y) -> (length l <= 1)%nat.
Proof.
  intros Hnd Heq. destruct l as [|x [|y l]]; cbn; [lia | lia |].
  exfalso. apply NoDup_cons in Hnd as [Hnot _]. apply Hnot.
  rewrite (Heq x y); [left | left | right; left].
Qed.

(** C2. In every state the service can reach from the empty store,
    the store holds at most one record per email: the records with a
    given email number at most one, and two entries whose records
    carry the same email are one and the same entry. *)
Theorem one_record_per_email (ms : MemoryUserStorage.t) :
  reachable ms ->
  forall email : string,
    (length (records_of email ms) <= 1)%nat
    /\ (forall (k1 k2 : string) (u1 u2 : User),
          MemoryUserStorage.store ms !! k1 = Some u1 ->
          MemoryUserStorage.store ms !! k2 = Some u2 ->
          Email u1 = email -> Email u2 = email ->
          k1 = k2 /\ u1 = u2).
Proof.
  intros Hreach email. apply reachable_keyed in Hreach.
  assert (Hone : forall k1 k2 u1 u2,
             MemoryUserStorage.store ms !! k1 = Some u1 ->
             MemoryUserStorage.store ms !! k2 = Some u2 ->
             Email u1 = email -> Email u2 = email -> k1 = k2 /\ u1 = u2).
  { intros k1 k2 u1 u2 H1 H2 E1 E2.
    eapply keyed_same_record; eauto. congruence. }
  split; [|exact Hone].
  apply NoDup_all_equal_length.
  - apply NoDup_filter, NoDup_map_to_list.
  - intros [k1 u1] [k2 u2] Hx Hy.
    apply list_elem_of_filter in Hx as [E1 Hx], Hy as [E2 Hy].
    apply elem_of_map_to_list in Hx, Hy. cbn in E1, E2.
    destruct (Hone k1 k2 u1 u2) as [-> ->]; done.
Qed.

Lemma one_record_per_email_example :
  let ms := exec (OpRegister {| RegisterParams.Email := "ann@example.org";
                                RegisterParams.Name := "Another Ann" |})
              (exec (OpGetByEmail "ann@example.org")
                 (exec (OpRegister {| RegisterParams.Email := "ann@example.org";
                                      RegisterParams.Name := "Ann" |})
                    NewMemoryUserStorage)) in
  records_of "ann@example.org" ms
  = [("ann@example.org", {| Email := "ann@example.org"; Name := "Ann" |})]
  /\ (length (records_of "ann@example.org" ms) <= 1)%nat.
Proof.
  split; [vm_compute; reflexivity|].
  apply one_record_per_email.
  repeat apply reach_step. apply reach_new.
Defined.

(** ** The access layer *)

Lemma Error_fresh (msg : string) (code : Z) :
  http.Error http.NewRecorder msg code
  = {| http.Code := Some code; http.Written := msg ++ newline |}.
Proof. reflexivity. Qed.

Lemma ContainsRune_spec (s : string) (r : ascii) :
  ContainsRune s r = true <-> exists a b, s = a ++ String r b.
Proof.
  induction s as [|c s IH]; cbn.
  - split; [discriminate|]. intros (a & b & Heq). by destruct a.
  - destruct (decide (c = r)) as [->|Hne].
    + split; [|done]. intros _. by exists EmptyString, s.
    + rewrite IH. split.
      * intros (a & b & ->). by exists (String c a), b.
      * intros (a & b & Heq). destruct a as [|c' a]; cbn in Heq.
        -- injection Heq as Hc _. by destruct Hne.
        -- injection Heq as _ ->. by exists a, b.
Qed.

Ltac post_request Hpost :=
  unfold JsonOverHTTP.Register;
  rewrite (decide_False (P := _ <> http.MethodPost))
    by (intros Hq; apply Hq; exact Hpost).

Ltac get_request Hget :=
  unfold JsonOverHTTP.GetUser;
  rewrite (decide_False (P := _ <> http.MethodGet))
    by (intros Hq; apply Hq; exact Hget).

(** C5. The answers of the /register handler: 405 for a method other
    than POST; 400 when the body does not decode or the parameters do
    not validate; 403 when the service reports ErrEmailExists; 500 for
    any other error of the service; 201 with an empty body when the
    service succeeds. *)
Theorem Register_responses {St : Type} {usrServ : UserService.t St}
    {codec : json.Codec} (r : http.Request) (j : St) :
  let zero := {| RegisterParams.Email := ""; RegisterParams.Name := "" |} in
  let w := fst (JsonOverHTTP.Register http.NewRecorder r j) in
  (http.Method r <> "POST" -> http.Status w = 405)
  /\ (http.Method r = "POST" ->
      forall params err,
        json.Decode (http.Body r) zero = (params, err) ->
        (err <> None -> http.Status w = 400)
        /\ (err = None ->
            (forall e, RegisterParams.Validate params = Some e ->
                       http.Status w = 400)
            /\ (RegisterParams.Validate params = None ->
                forall res j1,
                  UserService.Register params j = (res, j1) ->
                  (res = Some ErrEmailExists -> http.Status w = 403)
                  /\ (forall e, res = Some e -> e <> ErrEmailExists ->
                                http.Status w = 500)
                  /\ (res = None ->
                      http.Status w = 201 /\ http.Written w = "")))).
Proof.
  intros zero w. split.
  - intros Hm. subst w. unfold JsonOverHTTP.Register.
    by rewrite decide_True.
  - intros Hpost params err Hdec. subst w zero. post_request Hpost.
    rewrite Hdec. split.
    + intros Herr. by rewrite decide_True.
    + intros ->. rewrite decide_False by (intros Hq; by apply Hq). split.
      * intros e ->. reflexivity.
      * intros -> res j1 ->. split; [|split].
        -- intros ->. reflexivity.
        -- intros e -> Hne. by rewrite decide_False.
        -- intros ->. by split.
Qed.

Lemma Register_responses_example :
  let ann := Sample.ann_registered in
  let status {St : Type} (usrServ : UserService.t St) (r : http.Request) (j : St) :=
    http.Status
      (fst (JsonOverHTTP.Register (codec := Sample.codec) http.NewRecorder r j)) in
  status UserServiceImpl.service (Sample.get ∅) NewMemoryUserStorage = 405
  /\ status UserServiceImpl.service (Sample.post "") NewMemoryUserStorage = 400
  /\ status UserServiceImpl.service (Sample.post "no-at-sign.com Ann")
       NewMemoryUserStorage = 400
  /\ status UserServiceImpl.service (Sample.post "ann@example.org Ann") ann = 403
  /\ status (UserServiceImpl.service (userStorage := Faulty.storer))
       (Sample.post "ann@example.org Ann") tt = 500
  /\ status UserServiceImpl.service (Sample.post "ann@example.org Ann")
       NewMemoryUserStorage = 201.
Proof.
  cbv zeta. repeat apply conj.
  - apply (proj1 (Register_responses (codec := Sample.codec) _ _)).
    discriminate.
  - refine (proj1 (proj2 (Register_responses (codec := Sample.codec)
                            (Sample.post "") NewMemoryUserStorage)
                     eq_refl _ _ eq_refl) _).
    discriminate.
  - refine (proj1 (proj2 (proj2 (Register_responses (codec := Sample.codec)
                                   (Sample.post "no-at-sign.com Ann")
                                   NewMemoryUserStorage)
                            eq_refl _ _ eq_refl) eq_refl) _ _).
    vm_compute. reflexivity.
  - refine (proj1 (proj2 (proj2 (proj2 (Register_responses
                                          (codec := Sample.codec)
                                          (Sample.post "ann@example.org Ann")
                                          Sample.ann_registered)
                                   eq_refl _ _ eq_refl) eq_refl)
                     eq_refl _ _ eq_refl) _).
    vm_compute. reflexivity.
  - refine (proj1 (proj2 (proj2 (proj2 (proj2 (Register_responses
                                          (usrServ := UserServiceImpl.service
                                                        (userStorage := Faulty.storer))
                                          (codec := Sample.codec)
                                          (Sample.post "ann@example.org Ann") tt)
                                   eq_refl _ _ eq_refl) eq_refl)
                     eq_refl _ _ eq_refl)) Faulty.fault _ _).
    + vm_compute. reflexivity.
    + discriminate.
  - refine (proj1 (proj2 (proj2 (proj2 (proj2 (proj2 (Register_responses
                                          (codec := Sample.codec)
                                          (Sample.post "ann@example.org Ann")
                                          NewMemoryUserStorage)
                                   eq_refl _ _ eq_refl) eq_refl)
                     eq_refl _ _ eq_refl)) _)).
    vm_compute. reflexivity.
Defined.

Lemma validateEmail_rejects (email : string) :
  email = "" \/ ContainsRune email at_sign = false ->
  exists e, JsonOverHTTP.validateEmail email = Some e.
Proof.
  unfold JsonOverHTTP.validateEmail. intros [->|Hno].
  - eauto.
  - destruct (decide (email = "")); [eauto|]. rewrite Hno. cbn. eauto.
Qed.

Lemma validateEmail_accepts (email : string) :
  email <> "" -> ContainsRune email at_sign = true ->
  JsonOverHTTP.validateEmail email = None.
Proof.
  intros Hne Hat. unfold JsonOverHTTP.validateEmail.
  rewrite decide_False by done. by rewrite Hat.
Qed.

Lemma FormValue_missing (key : string) (r : http.Request) :
  http.Form r !! key = None -> http.FormValue key r = "".
Proof. intros Hl. unfold http.FormValue. by rewrite Hl. Qed.

(** C6. The answers of the /user handler: 405 for a method other than
    GET; 400 for an email parameter that is missing, empty or without
    an at sign, and then the service is not invoked (the state is
    returned untouched, and a service that counts its calls counts
    none); 404 when the service reports ErrUserNotFound; 500 for any
    other error of the service; otherwise 200 with the marshalled user
    as the body. *)
Theorem GetUser_responses {St : Type} {usrServ : UserService.t St}
    {codec : json.Codec} (r : http.Request) (j : St) :
  let email := http.FormValue "email" r in
  let out := JsonOverHTTP.GetUser http.NewRecorder r j in
  let w := fst out in
  (http.Method r <> "GET" -> http.Status w = 405)
  /\ (http.Method r = "GET" ->
      (http.Form r !! "email" = None \/ email = ""
       \/ ContainsRune email at_sign = false ->
       http.Status w = 400
       /\ snd out = j
       /\ forall calls : nat,
            snd (JsonOverHTTP.GetUser (usrServ := Counting.service usrServ)
                   http.NewRecorder r (j, calls)) = (j, calls))
      /\ (email <> "" -> ContainsRune email at_sign = true ->
          forall u err j1,
            UserService.GetByEmail email j = ((u, err), j1) ->
            (err = Some ErrUserNotFound -> http.Status w = 404)
            /\ (forall e, err = Some e -> e <> ErrUserNotFound ->
                          http.Status w = 500)
            /\ (err = None ->
                forall data, json.Marshal u = inl data ->
                  http.Status w = 200
                  /\ http.Written w = data ++ newline))).
Proof.
  intros email out w. split.
  - intros Hm. subst w out. unfold JsonOverHTTP.GetUser.
    by rewrite decide_True.
  - intros Hget. split.
    + intros Hbad.
      assert (Hbad' : email = "" \/ ContainsRune email at_sign = false).
      { destruct Hbad as [Hmiss|[He|Hno]]; [left|by left|by right].
        by apply FormValue_missing. }
      destruct (validateEmail_rejects _ Hbad') as [e He].
      subst w out. split; [|split].
      * get_request Hget. fold email. by rewrite He.
      * get_request Hget. fold email. by rewrite He.
      * intros calls. get_request Hget. fold email. by rewrite He.
    + intros Hne Hat u err j1 Hsrv. subst w out. get_request Hget.
      fold email. rewrite (validateEmail_accepts _ Hne Hat), Hsrv.
      split; [|split].
      * intros ->. reflexivity.
      * intros e -> Hnf. by rewrite decide_False.
      * intros -> data Hm. unfold json.Encode. rewrite Hm. by split.
Qed.

Lemma GetUser_responses_example :
  let query (email : string) := Sample.get {[ "email" := [email] ]} in
  let answer {St : Type} (usrServ : UserService.t St) (r : http.Request) (j : St) :=
    fst (JsonOverHTTP.GetUser (codec := Sample.codec) http.NewRecorder r j) in
  http.Status (answer UserServiceImpl.service (Sample.post "") NewMemoryUserStorage)
  = 405
  /\ http.Status (answer UserServiceImpl.service (Sample.get ∅) NewMemoryUserStorage)
     = 400
  /\ snd (JsonOverHTTP.GetUser (usrServ := Counting.service UserServiceImpl.service)
            (codec := Sample.codec) http.NewRecorder
            (query "nobody") (Sample.ann_registered, 0%nat))
     = (Sample.ann_registered, 0%nat)
  /\ http.Status (answer UserServiceImpl.service (query "bob@example.org")
                    Sample.ann_registered) = 404
  /\ http.Status (answer (UserServiceImpl.service (userStorage := Faulty.storer))
                    (query "ann@example.org") tt) = 500
  /\ http.Status (answer UserServiceImpl.service (query "ann@example.org")
                    Sample.ann_registered) = 200
  /\ http.Written (answer UserServiceImpl.service (query "ann@example.org")
                     Sample.ann_registered)
     = "ann@example.org:Ann" ++ newline.
Proof.
  cbv zeta.
  pose proof (GetUser_responses (codec := Sample.codec)
                (Sample.post "") NewMemoryUserStorage) as [Hmethod _].
  pose proof (GetUser_responses (codec := Sample.codec)
                (Sample.get ∅) NewMemoryUserStorage) as [_ Hmissing].
  pose proof (GetUser_responses (codec := Sample.codec)
                (Sample.get {[ "email" := ["nobody"] ]})
                Sample.ann_registered) as [_ Hinvalid].
  pose proof (GetUser_responses (codec := Sample.codec)
                (Sample.get {[ "email" := ["bob@example.org"] ]})
                Sample.ann_registered) as [_ Hbob].
  pose proof (GetUser_responses
                (usrServ := UserServiceImpl.service (userStorage := Faulty.storer))
                (codec := Sample.codec)
                (Sample.get {[ "email" := ["ann@example.org"] ]}) tt)
    as [_ Hfault].
  pose proof (GetUser_responses (codec := Sample.codec)
                (Sample.get {[ "email" := ["ann@example.org"] ]})
                Sample.ann_registered) as [_ Hann].
  cbv zeta in *.
  destruct (Hmissing eq_refl) as [Hmissing' _].
  destruct (Hinvalid eq_refl) as [Hinvalid' _].
  destruct (Hbob eq_refl) as [_ Hbob'].
  destruct (Hfault eq_refl) as [_ Hfault'].
  destruct (Hann eq_refl) as [_ Hann'].
  repeat apply conj.
  - apply Hmethod. discriminate.
  - apply Hmissing'. left. reflexivity.
  - apply Hinvalid'. right. right. reflexivity.
  - refine (proj1 (Hbob' _ eq_refl _ _ _ eq_refl) eq_refl); discriminate.
  - refine (proj1 (proj2 (Hfault' _ eq_refl _ _ _ eq_refl)) Faulty.fault eq_refl _);
      discriminate.
  - refine (proj1 (proj2 (proj2 (Hann' _ eq_refl _ _ _ eq_refl)) eq_refl _ eq_refl));
      discriminate.
  - refine (proj2 (proj2 (proj2 (Hann' _ eq_refl _ _ _ eq_refl)) eq_refl _ eq_refl));
      discriminate.
Defined.

(** C7. Validation checks, in this order, that the email is not empty,
    that it holds an at sign, and that the name is not empty, and
    reports the first rule violated (so an email without an at sign is
    rejected whatever the name, and an empty name is rejected for any
    valid email).  The handler answers a violation with 400 and the
    message of the rule, without calling the service: the state is
    returned untouched, a service that counts its calls counts none,
    and the in-memory store keeps its records. *)
Theorem Validate_first_violation :
  (forall rp, RegisterParams.Email rp = "" ->
     RegisterParams.Validate rp = Some (errors_New "Email cannot be empty"))
  /\ (forall rp, RegisterParams.Email rp <> "" ->
        ContainsRune (RegisterParams.Email rp) at_sign = false ->
        RegisterParams.Validate rp
        = Some (errors_New "Email must include an '@' symbol"))
  /\ (forall rp, RegisterParams.Email rp <> "" ->
        ContainsRune (RegisterParams.Email rp) at_sign = true ->
        RegisterParams.Name rp = "" ->
        RegisterParams.Validate rp = Some (errors_New "Name cannot be empty"))
  /\ (forall rp, RegisterParams.Email rp <> "" ->
        ContainsRune (RegisterParams.Email rp) at_sign = true ->
        RegisterParams.Name rp <> "" ->
        RegisterParams.Validate rp = None)
  /\ (forall name,
        RegisterParams.Validate
          {| RegisterParams.Email := "no-at-sign.com"; RegisterParams.Name := name |}
        = Some (errors_New "Email must include an '@' symbol"))
  /\ (forall (St : Type) (usrServ : UserService.t St) (codec : json.Codec)
             (r : http.Request) (j : St) (params : RegisterParams.t) (e : error),
        http.Method r = "POST" ->
        json.Decode (http.Body r)
          {| RegisterParams.Email := ""; RegisterParams.Name := "" |}
        = (params, None) ->
        RegisterParams.Validate params = Some e ->
        JsonOverHTTP.Register http.NewRecorder r j
        = ({| http.Code := Some 400; http.Written := Error e ++ newline |}, j)
        /\ forall calls : nat,
             snd (JsonOverHTTP.Register (usrServ := Counting.service usrServ)
                    http.NewRecorder r (j, calls)) = (j, calls))
  /\ (forall (codec : json.Codec) (r : http.Request) (ms : MemoryUserStorage.t)
             (params : RegisterParams.t) (e : error),
        http.Method r = "POST" ->
        json.Decode (http.Body r)
          {| RegisterParams.Email := ""; RegisterParams.Name := "" |}
        = (params, None) ->
        RegisterParams.Validate params = Some e ->
        MemoryUserStorage.store (snd (JsonOverHTTP.Register http.NewRecorder r ms))
        = MemoryUserStorage.store ms).
Proof.
  assert (Hhandler :
    forall (St : Type) (usrServ : UserService.t St) (codec : json.Codec)
           (r : http.Request) (j : St) (params : RegisterParams.t) (e : error),
      http.Method r = "POST" ->
      json.Decode (http.Body r)
        {| RegisterParams.Email := ""; RegisterParams.Name := "" |}
      = (params, None) ->
      RegisterParams.Validate params = Some e ->
      JsonOverHTTP.Register http.NewRecorder r j
      = ({| http.Code := Some 400; http.Written := Error e ++ newline |}, j)).
  { intros St usrServ codec r j params e Hpost Hdec Hval.
    post_request Hpost. rewrite Hdec.
    rewrite decide_False by (intros Hq; by apply Hq).
    by rewrite Hval. }
  unfold RegisterParams.Validate. repeat apply conj.
  - intros rp ->. reflexivity.
  - intros rp Hne Hno. rewrite decide_False by done. by rewrite Hno.
  - intros rp Hne Hat ->. rewrite decide_False by done. by rewrite Hat.
  - intros rp Hne Hat Hname. rewrite decide_False by done. rewrite Hat. cbn.
    by rewrite decide_False.
  - intros name. reflexivity.
  - intros St usrServ codec r j params e Hpost Hdec Hval. split.
    + by eapply Hhandler.
    + intros calls.
      by rewrite (Hhandler _ (Counting.service usrServ) codec r (j, calls)
                    params e Hpost Hdec Hval).
  - intros codec r ms params e Hpost Hdec Hval.
    by rewrite (Hhandler _ _ codec r ms params e Hpost Hdec Hval).
Qed.

Lemma Validate_first_violation_example :
  RegisterParams.Validate
    {| RegisterParams.Email := ""; RegisterParams.Name := "Ann" |}
  = Some (errors_New "Email cannot be empty")
  /\ RegisterParams.Validate
       {| RegisterParams.Email := "ann.example.org"; RegisterParams.Name := "" |}
     = Some (errors_New "Email must include an '@' symbol")
  /\ RegisterParams.Validate
       {| RegisterParams.Email := "ann@example.org"; RegisterParams.Name := "" |}
     = Some (errors_New "Name cannot be empty")
  /\ RegisterParams.Validate
       {| RegisterParams.Email := "ann@example.org"; RegisterParams.Name := "Ann" |}
     = None
  /\ JsonOverHTTP.Register (codec := Sample.codec) http.NewRecorder
       (Sample.post "no-at-sign.com Ann") Sample.ann_registered
     = ({| http.Code := Some 400;
           http.Written := "Email must include an '@' symbol" ++ newline |},
        Sample.ann_registered)
  /\ JsonOverHTTP.Register (codec := Sample.codec) http.NewRecorder
       (Sample.post "bob@example.org ") Sample.ann_registered
     = ({| http.Code := Some 400;
           http.Written := "Name cannot be empty" ++ newline |},
        Sample.ann_registered)
  /\ snd (JsonOverHTTP.Register (usrServ := Counting.service UserServiceImpl.service)
            (codec := Sample.codec) http.NewRecorder
            (Sample.post " Ann") (Sample.ann_registered, 0%nat))
     = (Sample.ann_registered, 0%nat).
Proof.
  destruct Validate_first_violation
    as (Hempty & Hat & Hname & Hvalid & _ & Hhandler & _).
  repeat apply conj.
  - by apply Hempty.
  - by apply Hat.
  - by apply Hname.
  - by apply Hvalid.
  - refine (proj1 (Hhandler _ _ Sample.codec (Sample.post "no-at-sign.com Ann")
                     Sample.ann_registered _
                     (errors_New "Email must include an '@' symbol")
                     eq_refl eq_refl eq_refl)).
  - refine (proj1 (Hhandler _ _ Sample.codec (Sample.post "bob@example.org ")
                     Sample.ann_registered _
                     (errors_New "Name cannot be empty")
                     eq_refl eq_refl eq_refl)).
  - refine (proj2 (Hhandler _ UserServiceImpl.service Sample.codec
                     (Sample.post " Ann") Sample.ann_registered _
                     (errors_New "Email cannot be empty")
                     eq_refl eq_refl eq_refl) 0%nat).
Defined.

Lemma GetUser_500_memory (codec : json.Codec) (r : http.Request)
    (ms : MemoryUserStorage.t) :
  http.Status (fst (JsonOverHTTP.GetUser http.NewRecorder r ms)) = 500 ->
  exists u e,
    fst (UserServiceImpl.GetByEmail (http.FormValue "email" r) ms) = (Some u, None)
    /\ json.Marshal (Some u) = inr e.
Proof.
  unfold JsonOverHTTP.GetUser.
  destruct (decide (http.Method r <> http.MethodGet)); [done|].
  destruct (JsonOverHTTP.validateEmail _); [done|].
  cbn [UserService.GetByEmail UserServiceImpl.service].
  unfold UserServiceImpl.GetByEmail. cbn [UserStorer.Get MemoryUserStorage.storer].
  unfold MemoryUserStorage.Get.
  destruct (MemoryUserStorage.store ms !! _) as [u|]; [|done].
  unfold json.Encode. destruct (json.Marshal (Some u)) as [data|e] eqn:Hm.
  - done.
  - intros _. by exists u, e.
Qed.

(** C9. Over the in-memory storage, Save always returns nil and Get
    fails with ErrUserNotFound only; hence Register returns nil or
    ErrEmailExists and nothing else, GetByEmail returns nil or
    ErrUserNotFound and nothing else, and neither handler ever takes
    its branch for other service errors: /register never answers 500,
    and /user answers 500 only when the service succeeded and the
    found user failed to marshal, so never with a marshaller that
    accepts every user. *)
Theorem memory_storage_never_faults :
  (forall user ms, fst (MemoryUserStorage.Save user ms) = None)
  /\ (forall email ms e,
        snd (fst (MemoryUserStorage.Get email ms)) = Some e ->
        e = ErrUserNotFound)
  /\ (forall params (ms : MemoryUserStorage.t),
        fst (UserServiceImpl.Register params ms) = None
        \/ fst (UserServiceImpl.Register params ms) = Some ErrEmailExists)
  /\ (forall email (ms : MemoryUserStorage.t),
        snd (fst (UserServiceImpl.GetByEmail email ms)) = None
        \/ snd (fst (UserServiceImpl.GetByEmail email ms)) = Some ErrUserNotFound)
  /\ (forall (codec : json.Codec) r (ms : MemoryUserStorage.t),
        http.Status (fst (JsonOverHTTP.Register http.NewRecorder r ms)) <> 500)
  /\ (forall (codec : json.Codec) r (ms : MemoryUserStorage.t),
        http.Status (fst (JsonOverHTTP.GetUser http.NewRecorder r ms)) = 500 ->
        exists u e,
          fst (UserServiceImpl.GetByEmail (http.FormValue "email" r) ms)
          = (Some u, None)
          /\ json.Marshal (Some u) = inr e)
  /\ (forall (codec : json.Codec),
        (forall u, exists data, json.Marshal (Some u) = inl data) ->
        forall r (ms : MemoryUserStorage.t),
          http.Status (fst (JsonOverHTTP.GetUser http.NewRecorder r ms)) <> 500).
Proof.
  repeat apply conj.
  - reflexivity.
  - intros email ms e. unfold MemoryUserStorage.Get.
    destruct (_ !! _); cbn; congruence.
  - intros params ms.
    destruct (Register_cases params ms) as [(u & _ & ->)|[_ ->]]; auto.
  - intros email ms. unfold UserServiceImpl.GetByEmail. cbn.
    unfold MemoryUserStorage.Get. destruct (_ !! _); auto.
  - intros codec r ms. unfold JsonOverHTTP.Register.
    destruct (decide (http.Method r <> http.MethodPost)); [done|].
    destruct (json.Decode _ _) as [params err].
    destruct (decide (err <> None)); [done|].
    destruct (RegisterParams.Validate params); [done|].
    cbn [UserService.Register UserServiceImpl.service].
    destruct (Register_cases params ms) as [(u & _ & ->)|[_ ->]]; done.
  - apply GetUser_500_memory.
  - intros codec Htotal r ms H500.
    destruct (GetUser_500_memory codec r ms H500) as (u & e & _ & Hm).
    destruct (Htotal u) as [data Hd]. congruence.
Qed.

Lemma memory_storage_never_faults_example :
  http.Status
    (fst (JsonOverHTTP.GetUser (codec := Sample.broken_codec) http.NewRecorder
            (Sample.get {[ "email" := ["ann@example.org"] ]})
            Sample.ann_registered)) = 500
  /\ exists u e,
       fst (UserServiceImpl.GetByEmail "ann@example.org" Sample.ann_registered)
       = (Some u, None)
       /\ json.Marshal (Codec := Sample.broken_codec) (Some u) = inr e.
Proof.
  split; [reflexivity|].
  destruct memory_storage_never_faults as (_ & _ & _ & _ & _ & Hget & _).
  exact (Hget Sample.broken_codec
           (Sample.get {[ "email" := ["ann@example.org"] ]})
           Sample.ann_registered eq_refl).
Defined.

(** * Further properties *)

(** ** Save as an upsert *)

Lemma storage_eq (ms1 ms2 : MemoryUserStorage.t) :
  MemoryUserStorage.store ms1 = MemoryUserStorage.store ms2 -> ms1 = ms2.
Proof. destruct ms1, ms2. cbn. by intros ->. Qed.

(** X1. Save then Get: whatever the store held under the email, a Get
    of a user's email right after saving that user returns that user
    and no error. *)
Theorem Save_then_Get (user : User) (ms : MemoryUserStorage.t) :
  fst (MemoryUserStorage.Get (Email user) (snd (MemoryUserStorage.Save user ms)))
  = (Some user, None).
Proof.
  rewrite (Get_found _ _ user); [done|].
  cbn. by rewrite lookup_insert_eq.
Qed.

(** X2. The last save wins: saving a second user under the email of a
    first one leaves the store as if only the second had been saved. *)
Theorem Save_overwrites (first second : User) (ms : MemoryUserStorage.t) :
  Email first = Email second ->
  snd (MemoryUserStorage.Save second (snd (MemoryUserStorage.Save first ms)))
  = snd (MemoryUserStorage.Save second ms).
Proof.
  intros Hsame. apply storage_eq. cbn. rewrite Hsame.
  by rewrite insert_insert_eq.
Qed.

Lemma Save_overwrites_example :
  let ann := {| Email := "ann@example.org"; Name := "Ann" |} in
  let anna := {| Email := "ann@example.org"; Name := "Anna" |} in
  let ms := snd (MemoryUserStorage.Save anna
                   (snd (MemoryUserStorage.Save ann NewMemoryUserStorage))) in
  ms = snd (MemoryUserStorage.Save anna NewMemoryUserStorage)
  /\ fst (MemoryUserStorage.Get "ann@example.org" ms) = (Some anna, None).
Proof.
  split; [|vm_compute; reflexivity].
  apply (Save_overwrites {| Email := "ann@example.org"; Name := "Ann" |}
           {| Email := "ann@example.org"; Name := "Anna" |}
           NewMemoryUserStorage).
  reflexivity.
Defined.

(** X3. Saves under different emails commute: the store is the same
    whichever of the two users is saved first. *)
Theorem Save_commute (u1 u2 : User) (ms : MemoryUserStorage.t) :
  Email u1 <> Email u2 ->
  snd (MemoryUserStorage.Save u1 (snd (MemoryUserStorage.Save u2 ms)))
  = snd (MemoryUserStorage.Save u2 (snd (MemoryUserStorage.Save u1 ms))).
Proof.
  intros Hne. apply storage_eq. cbn. by apply insert_insert_ne.
Qed.

Lemma Save_commute_example :
  let ann := {| Email := "ann@example.org"; Name := "Ann" |} in
  let bob := {| Email := "bob@example.org"; Name := "Bob" |} in
  snd (MemoryUserStorage.Save ann
         (snd (MemoryUserStorage.Save bob NewMemoryUserStorage)))
  = snd (MemoryUserStorage.Save bob
           (snd (MemoryUserStorage.Save ann NewMemoryUserStorage))).
Proof.
  apply (Save_commute {| Email := "ann@example.org"; Name := "Ann" |}
           {| Email := "bob@example.org"; Name := "Bob" |}).
  cbn. discriminate.
Defined.

(** ** What a registration does to the store *)

Lemma Register_eq (params : RegisterParams.t) (ms : MemoryUserStorage.t) :
  UserServiceImpl.Register params ms
  = match MemoryUserStorage.store ms !! RegisterParams.Email params with
    | Some _ => (Some ErrEmailExists, ms)
    | None =>
        (None,
         {| MemoryUserStorage.store :=
              <[RegisterParams.Email params := user_of params]>
                (MemoryUserStorage.store ms) |})
    end.
Proof.
  destruct (Register_cases params ms) as [(u & Hl & ->)|[Hl ->]];
    by rewrite Hl.
Qed.

(** X4. A registration either succeeds, on an email the store did not
    hold, and then the store has exactly one record more; or fails with
    ErrEmailExists, on an email the store holds, and then the store is
    left exactly as it was. *)
Theorem Register_effect (params : RegisterParams.t) (ms : MemoryUserStorage.t) :
  let out := UserServiceImpl.Register params ms in
  (fst out = None
   /\ MemoryUserStorage.store ms !! RegisterParams.Email params = None
   /\ size (MemoryUserStorage.store (snd out))
      = S (size (MemoryUserStorage.store ms)))
  \/ (fst out = Some ErrEmailExists
      /\ is_Some (MemoryUserStorage.store ms !! RegisterParams.Email params)
      /\ snd out = ms).
Proof.
  intros out. subst out. rewrite Register_eq.
  destruct (MemoryUserStorage.store ms !! RegisterParams.Email params)
    as [u|] eqn:Hl.
  - right. cbn. eauto.
  - left. cbn. repeat split. by apply map_size_insert_None.
Qed.

(** X5. The service over the in-memory storage never removes or
    replaces a record: what is stored under an email stays stored
    under it through every sequence of Register and GetByEmail calls. *)
Theorem records_are_permanent (ops : list op) (ms : MemoryUserStorage.t)
    (email : string) (u : User) :
  MemoryUserStorage.store ms !! email = Some u ->
  MemoryUserStorage.store (run ops ms) !! email = Some u.
Proof.
  revert ms. induction ops as [|o ops IH]; intros ms Hl; [exact Hl|].
  cbn. apply IH. destruct o as [params|e]; cbn [exec].
  - rewrite Register_eq.
    destruct (MemoryUserStorage.store ms !! RegisterParams.Email params)
      as [u'|] eqn:Hp; cbn; [exact Hl|].
    rewrite lookup_insert_ne; [exact Hl | congruence].
  - unfold UserServiceImpl.GetByEmail. cbn [UserStorer.Get MemoryUserStorage.storer].
    by rewrite Get_state.
Qed.

Lemma records_are_permanent_example :
  MemoryUserStorage.store
    (run [OpRegister {| RegisterParams.Email := "ann@example.org";
                        RegisterParams.Name := "Impostor" |};
          OpGetByEmail "ann@example.org";
          OpRegister {| RegisterParams.Email := "bob@example.org";
                        RegisterParams.Name := "Bob" |}]
       Sample.ann_registered) !! "ann@example.org"
  = Some {| Email := "ann@example.org"; Name := "Ann" |}.
Proof.
  apply (records_are_permanent _ Sample.ann_registered).
  vm_compute. reflexivity.
Defined.

(** X6. The first registration wins: after any sequence of calls on
    the empty store, GetByEmail of an email returns the user of the
    earliest Register under that email, and ErrUserNotFound when the
    sequence has none. *)
Theorem first_registration_wins (ops : list op) (email : string) :
  fst (UserServiceImpl.GetByEmail email (run ops NewMemoryUserStorage))
  = match first_registration email ops with
    | Some u => (Some u, None)
    | None => (None, Some ErrUserNotFound)
    end.
Proof.
  assert (Hrun : forall ms,
    MemoryUserStorage.store (run ops ms) !! email
    = match MemoryUserStorage.store ms !! email with
      | Some u => Some u
      | None => first_registration email ops
      end).
  { induction ops as [|o ops IH]; intros ms.
    - cbn. by destruct (_ !! _).
    - change (run (o :: ops) ms) with (run ops (exec o ms)). rewrite IH.
      destruct o as [params|e]; cbn [exec first_registration].
      + rewrite Register_eq.
        destruct (MemoryUserStorage.store ms !! RegisterParams.Email params)
          as [u'|] eqn:Hp; cbn [snd MemoryUserStorage.store].
        * destruct (MemoryUserStorage.store ms !! email) eqn:He; [done|].
          rewrite decide_False; [done | congruence].
        * destruct (decide (RegisterParams.Email params = email)) as [<-|Hne].
          -- by rewrite lookup_insert_eq, Hp.
          -- by rewrite lookup_insert_ne.
      + unfold UserServiceImpl.GetByEmail.
        cbn [UserStorer.Get MemoryUserStorage.storer]. by rewrite Get_state. }
  unfold UserServiceImpl.GetByEmail. cbn [UserStorer.Get MemoryUserStorage.storer].
  unfold MemoryUserStorage.Get. rewrite Hrun. cbn. rewrite lookup_empty.
  by destruct (first_registration email ops).
Qed.

(** X7. A registration leaves every other email alone: GetByEmail of
    an email other than the registered one answers after the Register
    what it answered before. *)
Theorem Register_frame (params : RegisterParams.t) (ms : MemoryUserStorage.t)
    (email : string) :
  email <> RegisterParams.Email params ->
  fst (UserServiceImpl.GetByEmail email (snd (UserServiceImpl.Register params ms)))
  = fst (UserServiceImpl.GetByEmail email ms).
Proof.
  intros Hne. rewrite Register_eq.
  destruct (MemoryUserStorage.store ms !! RegisterParams.Email params);
    cbn [snd]; [done|].
  unfold UserServiceImpl.GetByEmail. cbn [UserStorer.Get MemoryUserStorage.storer].
  unfold MemoryUserStorage.Get. cbn [MemoryUserStorage.store].
  rewrite lookup_insert_ne by done.
  by destruct (MemoryUserStorage.store ms !! email).
Qed.

Lemma Register_frame_example :
  fst (UserServiceImpl.GetByEmail "ann@example.org"
         (snd (UserServiceImpl.Register
                 {| RegisterParams.Email := "bob@example.org";
                    RegisterParams.Name := "Bob" |} Sample.ann_registered)))
  = fst (UserServiceImpl.GetByEmail "ann@example.org" Sample.ann_registered).
Proof.
  apply (Register_frame
           {| RegisterParams.Email := "bob@example.org";
              RegisterParams.Name := "Bob" |} Sample.ann_registered).
  cbn. discriminate.
Defined.

(** X8. Registrations under different emails do not interfere: each
    returns what it would return alone, and the store is the same
    whichever comes first. *)
Theorem Register_commute (p q : RegisterParams.t) (ms : MemoryUserStorage.t) :
  RegisterParams.Email p <> RegisterParams.Email q ->
  fst (UserServiceImpl.Register q (snd (UserServiceImpl.Register p ms)))
  = fst (UserServiceImpl.Register q ms)
  /\ snd (UserServiceImpl.Register q (snd (UserServiceImpl.Register p ms)))
     = snd (UserServiceImpl.Register p (snd (UserServiceImpl.Register q ms))).
Proof.
  intros Hne. rewrite (Register_eq p ms), (Register_eq q ms).
  destruct (MemoryUserStorage.store ms !! RegisterParams.Email p) as [up|] eqn:Hp;
    destruct (MemoryUserStorage.store ms !! RegisterParams.Email q) as [uq|] eqn:Hq;
    cbn [snd]; rewrite !Register_eq; cbn [MemoryUserStorage.store];
    rewrite ?lookup_insert_ne by done; rewrite ?Hp, ?Hq; cbn [fst snd];
    (split; [done|]); try done.
  apply storage_eq. cbn. by apply insert_insert_ne.
Qed.

Lemma Register_commute_example :
  let ann := {| RegisterParams.Email := "ann@example.org";
                RegisterParams.Name := "Ann" |} in
  let bob := {| RegisterParams.Email := "bob@example.org";
                RegisterParams.Name := "Bob" |} in
  fst (UserServiceImpl.Register bob
         (snd (UserServiceImpl.Register ann NewMemoryUserStorage)))
  = fst (UserServiceImpl.Register bob NewMemoryUserStorage)
  /\ snd (UserServiceImpl.Register bob
            (snd (UserServiceImpl.Register ann NewMemoryUserStorage)))
     = snd (UserServiceImpl.Register ann
              (snd (UserServiceImpl.Register bob NewMemoryUserStorage))).
Proof.
  apply (Register_commute
           {| RegisterParams.Email := "ann@example.org";
              RegisterParams.Name := "Ann" |}
           {| RegisterParams.Email := "bob@example.org";
              RegisterParams.Name := "Bob" |} NewMemoryUserStorage).
  cbn. discriminate.
Defined.

(** ** What validation accepts *)

Lemma Validate_None (rp : RegisterParams.t) :
  RegisterParams.Validate rp = None
  <-> RegisterParams.Email rp <> ""
      /\ ContainsRune (RegisterParams.Email rp) at_sign = true
      /\ RegisterParams.Name rp <> "".
Proof.
  unfold RegisterParams.Validate.
  destruct (decide (RegisterParams.Email rp = "")) as [He|He].
  { split; [discriminate | intros (Hne & _); done]. }
  destruct (ContainsRune (RegisterParams.Email rp) at_sign); cbn.
  2:{ split; [discriminate | intros (_ & Hat & _); done]. }
  destruct (decide (RegisterParams.Name rp = "")) as [Hn|Hn].
  - split; [discriminate | intros (_ & _ & Hne); done].
  - done.
Qed.

Lemma validateEmail_None (email : string) :
  JsonOverHTTP.validateEmail email = None
  <-> email <> "" /\ ContainsRune email at_sign = true.
Proof.
  unfold JsonOverHTTP.validateEmail.
  destruct (decide (email = "")) as [He|He].
  { split; [discriminate | intros (Hne & _); done]. }
  destruct (ContainsRune email at_sign); cbn.
  - done.
  - split; [discriminate | intros (_ & Hat); done].
Qed.

(** X9. Validate accepts exactly the parameters whose email has an at
    sign somewhere (anything, or nothing, before and after it) and
    whose name is not empty; the check for an empty email decides the
    message only, never the verdict. *)
Theorem Validate_accepts_iff (rp : RegisterParams.t) :
  RegisterParams.Validate rp = None
  <-> (exists before after,
         RegisterParams.Email rp = before ++ String at_sign after)
      /\ RegisterParams.Name rp <> "".
Proof.
  rewrite Validate_None, ContainsRune_spec. split.
  - intros (_ & Hat & Hname). done.
  - intros ((before & after & Heq) & Hname). split; [|eauto].
    rewrite Heq. by destruct before.
Qed.

(** X10. Registration and lookup agree on emails: parameters pass
    Validate exactly when their email passes validateEmail and their
    name is not empty, so every email a registration may store can be
    asked for at /user. *)
Theorem Validate_agrees_with_validateEmail (rp : RegisterParams.t) :
  RegisterParams.Validate rp = None
  <-> JsonOverHTTP.validateEmail (RegisterParams.Email rp) = None
      /\ RegisterParams.Name rp <> "".
Proof. rewrite Validate_None, validateEmail_None. tauto. Qed.

(** ** Requests against the in-memory program *)

Lemma Register_handler_effect (codec : json.Codec) (r : http.Request)
    (ms : MemoryUserStorage.t) :
  let out := JsonOverHTTP.Register http.NewRecorder r ms in
  (http.Status (fst out) <> 201 /\ snd out = ms)
  \/ (http.Status (fst out) = 201
      /\ exists params,
           json.Decode (http.Body r)
             {| RegisterParams.Email := ""; RegisterParams.Name := "" |}
           = (params, None)
           /\ RegisterParams.Validate params = None
           /\ MemoryUserStorage.store ms !! RegisterParams.Email params = None
           /\ snd out
              = {| MemoryUserStorage.store :=
                     <[RegisterParams.Email params := user_of params]>
                       (MemoryUserStorage.store ms) |}).
Proof.
  cbv zeta. unfold JsonOverHTTP.Register.
  destruct (decide (http.Method r <> http.MethodPost)); [by left|].
  destruct (json.Decode _ _) as [params err] eqn:Hdec.
  destruct (decide (err <> None)) as [|Herr]; [by left|].
  assert (err = None) as -> by (by destruct err; [destruct Herr|]).
  destruct (RegisterParams.Validate params) eqn:Hval; [by left|].
  cbn [UserService.Register UserServiceImpl.service]. rewrite Register_eq.
  destruct (MemoryUserStorage.store ms !! RegisterParams.Email params) eqn:Hl.
  - by left.
  - right. split; [done|]. by exists params.
Qed.

Lemma GetUser_state (codec : json.Codec) (w : http.ResponseWriter)
    (r : http.Request) (ms : MemoryUserStorage.t) :
  snd (JsonOverHTTP.GetUser w r ms) = ms.
Proof.
  unfold JsonOverHTTP.GetUser.
  destruct (decide (http.Method r <> http.MethodGet)); [done|].
  destruct (JsonOverHTTP.validateEmail _); [done|].
  cbn [UserService.GetByEmail UserServiceImpl.service].
  unfold UserServiceImpl.GetByEmail. cbn [UserStorer.Get MemoryUserStorage.storer].
  unfold MemoryUserStorage.Get.
  destruct (MemoryUserStorage.store ms !! _); [|done].
  by destruct (json.Encode _ _) as [w1 [e|]].
Qed.

(** X11. Round trip through the handlers: a POST whose body decodes to
    valid parameters with an email the store does not hold is answered
    201 with an empty body, and a GET for that email right after is
    answered 200 with the marshalled user, built from exactly those
    parameters, and a newline. *)
Theorem post_then_get (codec : json.Codec) (post get : http.Request)
    (params : RegisterParams.t) (data : string) (ms : MemoryUserStorage.t) :
  http.Method post = "POST" ->
  json.Decode (http.Body post)
    {| RegisterParams.Email := ""; RegisterParams.Name := "" |} = (params, None) ->
  RegisterParams.Validate params = None ->
  MemoryUserStorage.store ms !! RegisterParams.Email params = None ->
  http.Method get = "GET" ->
  http.FormValue "email" get = RegisterParams.Email params ->
  json.Marshal (Some (user_of params)) = inl data ->
  let created := JsonOverHTTP.Register http.NewRecorder post ms in
  let found := JsonOverHTTP.GetUser http.NewRecorder get (snd created) in
  fst created = {| http.Code := Some 201; http.Written := "" |}
  /\ fst found = {| http.Code := Some 200; http.Written := data ++ newline |}.
Proof.
  intros Hpost Hdec Hval Hfree Hget Hform Hm created found.
  assert (Hcreated : created
    = ({| http.Code := Some 201; http.Written := "" |},
       {| MemoryUserStorage.store :=
            <[RegisterParams.Email params := user_of params]>
              (MemoryUserStorage.store ms) |})).
  { subst created. post_request Hpost. rewrite Hdec.
    rewrite decide_False by (intros Hq; by apply Hq). rewrite Hval.
    cbn [UserService.Register UserServiceImpl.service].
    by rewrite Register_eq, Hfree. }
  subst found. rewrite Hcreated. cbn [fst snd]. split; [done|].
  get_request Hget. rewrite Hform.
  apply Validate_None in Hval as (Hne & Hat & _).
  rewrite (validateEmail_accepts _ Hne Hat).
  cbn [UserService.GetByEmail UserServiceImpl.service].
  unfold UserServiceImpl.GetByEmail. cbn [UserStorer.Get MemoryUserStorage.storer].
  rewrite (Get_found _ _ (user_of params)) by (cbn; by rewrite lookup_insert_eq).
  unfold json.Encode. by rewrite Hm.
Qed.

Lemma post_then_get_example :
  let created := JsonOverHTTP.Register (codec := Sample.codec) http.NewRecorder
                   (Sample.post "bob@example.org Bob") Sample.ann_registered in
  let found := JsonOverHTTP.GetUser (codec := Sample.codec) http.NewRecorder
                 (Sample.get {[ "email" := ["bob@example.org"] ]}) (snd created) in
  fst created = {| http.Code := Some 201; http.Written := "" |}
  /\ fst found = {| http.Code := Some 200;
                    http.Written := "bob@example.org:Bob" ++ newline |}.
Proof.
  apply (post_then_get Sample.codec (Sample.post "bob@example.org Bob")
           (Sample.get {[ "email" := ["bob@example.org"] ]})
           {| RegisterParams.Email := "bob@example.org";
              RegisterParams.Name := "Bob" |});
    vm_compute; reflexivity.
Defined.

(** X12. A POST for an email the store already holds is answered 403
    with the text of ErrEmailExists and a newline, and the store is
    returned as it was. *)
Theorem post_duplicate (codec : json.Codec) (r : http.Request)
    (params : RegisterParams.t) (held : User) (ms : MemoryUserStorage.t) :
  http.Method r = "POST" ->
  json.Decode (http.Body r)
    {| RegisterParams.Email := ""; RegisterParams.Name := "" |} = (params, None) ->
  RegisterParams.Validate params = None ->
  MemoryUserStorage.store ms !! RegisterParams.Email params = Some held ->
  JsonOverHTTP.Register http.NewRecorder r ms
  = ({| http.Code := Some 403;
        http.Written := "Email is already in use" ++ newline |}, ms).
Proof.
  intros Hpost Hdec Hval Hheld. post_request Hpost. rewrite Hdec.
  rewrite decide_False by (intros Hq; by apply Hq). rewrite Hval.
  cbn [UserService.Register UserServiceImpl.service].
  by rewrite Register_eq, Hheld.
Qed.

Lemma post_duplicate_example :
  JsonOverHTTP.Register (codec := Sample.codec) http.NewRecorder
    (Sample.post "ann@example.org Impostor") Sample.ann_registered
  = ({| http.Code := Some 403;
        http.Written := "Email is already in use" ++ newline |},
     Sample.ann_registered).
Proof.
  apply (post_duplicate Sample.codec (Sample.post "ann@example.org Impostor")
           {| RegisterParams.Email := "ann@example.org";
              RegisterParams.Name := "Impostor" |}
           {| Email := "ann@example.org"; Name := "Ann" |});
    vm_compute; reflexivity.
Defined.

(** X13. A GET for a well-formed email the store does not hold is
    answered 404 with the text of ErrUserNotFound and a newline, and
    the store is returned as it was. *)
Theorem get_unknown (codec : json.Codec) (r : http.Request)
    (ms : MemoryUserStorage.t) :
  http.Method r = "GET" ->
  JsonOverHTTP.validateEmail (http.FormValue "email" r) = None ->
  MemoryUserStorage.store ms !! http.FormValue "email" r = None ->
  JsonOverHTTP.GetUser http.NewRecorder r ms
  = ({| http.Code := Some 404; http.Written := "User not found" ++ newline |}, ms).
Proof.
  intros Hget Hval Hl. get_request Hget. rewrite Hval.
  cbn [UserService.GetByEmail UserServiceImpl.service].
  unfold UserServiceImpl.GetByEmail. cbn [UserStorer.Get MemoryUserStorage.storer].
  by rewrite (Get_absent _ _ Hl).
Qed.

Lemma get_unknown_example :
  JsonOverHTTP.GetUser (codec := Sample.codec) http.NewRecorder
    (Sample.get {[ "email" := ["bob@example.org"; "ann@example.org"] ]})
    Sample.ann_registered
  = ({| http.Code := Some 404; http.Written := "User not found" ++ newline |},
     Sample.ann_registered).
Proof.
  apply (get_unknown Sample.codec
           (Sample.get {[ "email" := ["bob@example.org"; "ann@example.org"] ]})
           Sample.ann_registered);
    vm_compute; reflexivity.
Defined.

(** X14. A POST changes the store only when it is answered 201: with
    any other answer the store is returned as it was, and with 201 the
    store gained exactly the user of the decoded parameters, which
    were valid and whose email the store did not hold. *)
Theorem store_changes_only_on_201 (codec : json.Codec) (r : http.Request)
    (ms : MemoryUserStorage.t) :
  let out := JsonOverHTTP.Register http.NewRecorder r ms in
  (http.Status (fst out) <> 201 -> snd out = ms)
  /\ (http.Status (fst out) = 201 ->
      exists params,
        json.Decode (http.Body r)
          {| RegisterParams.Email := ""; RegisterParams.Name := "" |}
        = (params, None)
        /\ RegisterParams.Validate params = None
        /\ MemoryUserStorage.store ms !! RegisterParams.Email params = None
        /\ snd out
           = {| MemoryUserStorage.store :=
                  <[RegisterParams.Email params := user_of params]>
                    (MemoryUserStorage.store ms) |}).
Proof.
  intros out. subst out.
  destruct (Register_handler_effect codec r ms) as [[Hno Hsame]|[Hyes Hnew]].
  - split; [done|]. intros H201. by destruct Hno.
  - split; [|done]. intros Hno. by destruct Hno.
Qed.

(** X15. Lookups are read-only: whatever the method, the parameters,
    the codec or the writer, no sequence of /user requests changes the
    store. *)
Theorem lookups_read_only (codec : json.Codec)
    (rs : list (http.ResponseWriter * http.Request)) (ms : MemoryUserStorage.t) :
  lookups rs ms = ms.
Proof.
  induction rs as [|[w r] rs IH]; [done|].
  unfold lookups in *. cbn [foldl fst snd]. by rewrite GetUser_state.
Qed.

(** X16. Whatever requests the program has served since it started
    with the empty store, every record it holds is stored under its
    own email and passed validation: the email is not empty and has an
    at sign, and the name is not empty. *)
Theorem served_records_valid (codec : json.Codec) (ms : MemoryUserStorage.t) :
  served ms ->
  forall (k : string) (u : User),
    MemoryUserStorage.store ms !! k = Some u -> Email u = k /\ valid_user u.
Proof.
  induction 1 as [|ep r ms _ IH]; intros k u.
  - cbn. by rewrite lookup_empty.
  - destruct ep; cbn [serve].
    + destruct (Register_handler_effect codec r ms)
        as [[_ ->]|[_ (params & _ & Hval & _ & ->)]]; [apply IH|].
      cbn [MemoryUserStorage.store].
      destruct (decide (RegisterParams.Email params = k)) as [<-|Hne].
      * rewrite lookup_insert_eq. intros [= <-]. split; [done|].
        by apply Validate_None in Hval.
      * rewrite lookup_insert_ne by done. apply IH.
    + rewrite GetUser_state. apply IH.
Qed.

Lemma served_records_valid_example :
  let ms := snd (serve (codec := Sample.codec) RegisterEndpoint
                   (Sample.post "no-at-sign.com Eve")
                   (snd (serve (codec := Sample.codec) RegisterEndpoint
                           (Sample.post "ann@example.org Ann")
                           NewMemoryUserStorage))) in
  MemoryUserStorage.store ms !! "ann@example.org"
  = Some {| Email := "ann@example.org"; Name := "Ann" |}
  /\ valid_user {| Email := "ann@example.org"; Name := "Ann" |}.
Proof.
  intros ms. split; [vm_compute; reflexivity|].
  refine (proj2 (served_records_valid Sample.codec ms _ "ann@example.org" _ _)).
  - subst ms. apply served_step, served_step, served_new.
  - vm_compute. reflexivity.
Defined.

(** X17. The handlers answer with a fixed set of status codes, on any
    service and codec: /register with 201, 400, 403, 405 or 500, and
    /user with 200, 400, 404, 405 or 500. *)
Theorem handler_status_codes {St : Type} {usrServ : UserService.t St}
    {codec : json.Codec} (r : http.Request) (j : St) :
  http.Status (fst (JsonOverHTTP.Register http.NewRecorder r j))
    ∈ [201; 400; 403; 405; 500]
  /\ http.Status (fst (JsonOverHTTP.GetUser http.NewRecorder r j))
       ∈ [200; 400; 404; 405; 500].
Proof.
  split.
  - unfold JsonOverHTTP.Register.
    destruct (decide (http.Method r <> http.MethodPost)); [cbn; set_solver|].
    destruct (json.Decode _ _) as [params err].
    destruct (decide (err <> None)); [cbn; set_solver|].
    destruct (RegisterParams.Validate params); [cbn; set_solver|].
    destruct (UserService.Register params j) as [[e|] j1].
    + destruct (decide (e = ErrEmailExists)); cbn; set_solver.
    + cbn. set_solver.
  - unfold JsonOverHTTP.GetUser.
    destruct (decide (http.Method r <> http.MethodGet)); [cbn; set_solver|].
    destruct (JsonOverHTTP.validateEmail _); [cbn; set_solver|].
    destruct (UserService.GetByEmail _ j) as [[u [e|]] j1].
    + destruct (decide (e = ErrUserNotFound)); cbn; set_solver.
    + unfold json.Encode. destruct (json.Marshal u); cbn; set_solver.
Qed.

(** X18. A handler calls the service at most once per request: around
    any service, the counter of a call-counting service is after the
    request what it was before, or one more. *)
Theorem at_most_one_service_call {St : Type} (inner : UserService.t St)
    (codec : json.Codec) (w : http.ResponseWriter) (r : http.Request)
    (j : St) (calls : nat) :
  let after_post :=
    snd (snd (JsonOverHTTP.Register (usrServ := Counting.service inner)
                w r (j, calls))) in
  let after_get :=
    snd (snd (JsonOverHTTP.GetUser (usrServ := Counting.service inner)
                w r (j, calls))) in
  (after_post = calls \/ after_post = S calls)
  /\ (after_get = calls \/ after_get = S calls).
Proof.
  cbv zeta. split.
  - unfold JsonOverHTTP.Register.
    destruct (decide (http.Method r <> http.MethodPost)); [by left|].
    destruct (json.Decode _ _) as [params err].
    destruct (decide (err <> None)); [by left|].
    destruct (RegisterParams.Validate params); [by left|].
    cbn [UserService.Register Counting.service].
    destruct (UserService.Register params j) as [[e|] j1]; [|by right].
    destruct (decide (e = ErrEmailExists)); by right.
  - unfold JsonOverHTTP.GetUser.
    destruct (decide (http.Method r <> http.MethodGet)); [by left|].
    destruct (JsonOverHTTP.validateEmail _); [by left|].
    cbn [UserService.GetByEmail Counting.service].
    destruct (UserService.GetByEmail _ j) as [[u [e|]] j1].
    + destruct (decide (e = ErrUserNotFound)); by right.
    + destruct (json.Encode u w) as [w1 [e|]]; by right.
Qed.
